(** * Model gateway (src/main.py): request shaping and response unwrapping

    A shallow embedding of the FastAPI gateway that forwards a math problem
    to the Gemini REST API.  Python values that travel through the code
    (request payloads, the parsed JSON reply) are one inductive type
    [value]; the dynamic operations the source applies to them ([.get],
    [x[0]], [in], iteration, [or], [str.join], [str]) are total functions
    that return either a value or the Python exception the interpreter
    would raise.  The outbound HTTP call is the only effect: it is kept in
    a log of requests threaded through a small state-and-exception monad. *)

From Stdlib Require Import ZArith NArith String Ascii List Strings.Byte DecimalString.
From stdpp Require Import base option list gmap strings.
Import ListNotations.

Local Open Scope Z_scope.

(** ** Python values *)

(** A Python [float].  The code only tests floats for truth and prints them,
    so a finite float is held by the decimal that [repr] prints for it (the
    shortest one that reads back as the same double): [FDec neg m e] is
    [(-1)^neg * m * 10^e], with [m] free of trailing zeros and [FDec _ 0 0]
    for the two zeros. *)
Inductive pyfloat : Type :=
| FNaN
| FInf (neg : bool)
| FDec (neg : bool) (digits : N) (exp10 : Z).

(** What [resp.json()] can produce, and what the request payload is built
    from.  A [str] is a [string], one [ascii] per character; a [dict] keeps
    its items in insertion order, each key once. *)
#[warnings="-register-all"] Inductive value : Type :=
| VNone
| VBool (b : bool)
| VInt (n : Z)
| VFloat (f : pyfloat)
| VStr (s : string)
| VList (items : list value)
| VDict (items : list (string * value)).

(** Exceptions the modelled code can meet. [HTTPException] is FastAPI's; the
    others are the interpreter's and [requests]'s. *)
Inductive exn : Type :=
| HTTPException (status_code : Z) (detail : string)
| JSONDecodeError
| AttributeError
| IndexError
| KeyError
| TypeError.

Inductive result (A : Type) : Type :=
| Ok (a : A)
| Raise (e : exn).
Arguments Ok {A} a.
Arguments Raise {A} e.

#[global] Instance result_ret : MRet result := fun A a => Ok a.
#[global] Instance result_bind : MBind result := fun A B f m =>
  match m with
  | Ok a => f a
  | Raise e => Raise e
  end.

(** [try: body except Exception: handler] *)
Definition try_except {A} (body : result A) (handler : exn -> result A) : result A :=
  match body with
  | Ok a => Ok a
  | Raise e => handler e
  end.

(** ** Strings *)

Definition NL : string := String "010"%char EmptyString.

Definition nonempty (s : string) : bool :=
  match s with
  | EmptyString => false
  | String _ _ => true
  end.

(** [s[:n]] *)
Definition slice_to (n : nat) (s : string) : string := substring 0 n s.

(** [sep.join(l)] on a list of [str] *)
Definition join (sep : string) (l : list string) : string := String.concat sep l.

(** [pat in s] for two [str] *)
Fixpoint str_contains (pat s : string) : bool :=
  String.prefix pat s ||
  match s with
  | EmptyString => false
  | String _ s' => str_contains pat s'
  end.

(** The characters of a [str], each as a [str] of length one. *)
Fixpoint chars (s : string) : list string :=
  match s with
  | EmptyString => []
  | String c s' => String c EmptyString :: chars s'
  end.

(** ** Truth, [or], and the dynamic operations *)

Definition float_truthy (f : pyfloat) : bool :=
  match f with
  | FNaN | FInf _ => true
  | FDec _ m _ => negb (m =? 0)%N
  end.

(** [bool(v)] *)
Definition truthy (v : value) : bool :=
  match v with
  | VNone => false
  | VBool b => b
  | VInt n => negb (n =? 0)
  | VFloat f => float_truthy f
  | VStr s => nonempty s
  | VList l => match l with [] => false | _ => true end
  | VDict d => match d with [] => false | _ => true end
  end.

(** [a or b] *)
Definition py_or (a b : value) : value := if truthy a then a else b.

(** [a or b] on two [Optional[str]] *)
Definition opt_or (a b : option string) : option string :=
  match a with
  | Some s => if nonempty s then a else b
  | None => b
  end.

(** [a or d] for an [Optional[str]] and a [str] *)
Definition opt_or_str (a : option string) (d : string) : string :=
  match a with
  | Some s => if nonempty s then s else d
  | None => d
  end.

Fixpoint dict_lookup (d : list (string * value)) (k : string) : option value :=
  match d with
  | [] => None
  | (k', v) :: d' => if String.eqb k' k then Some v else dict_lookup d' k
  end.

(** [o.get(k, default)]: only a [dict] has the method. *)
Definition py_get (o : value) (k : string) (default : value) : result value :=
  match o with
  | VDict d => Ok (match dict_lookup d k with Some v => v | None => default end)
  | _ => Raise AttributeError
  end.

(** [o[0]] *)
Definition py_item0 (o : value) : result value :=
  match o with
  | VList l => match l with x :: _ => Ok x | [] => Raise IndexError end
  | VStr s => match s with String c _ => Ok (VStr (String c EmptyString)) | EmptyString => Raise IndexError end
  | VDict _ => Raise KeyError
  | _ => Raise TypeError
  end.

(** The items a [for] loop over [o] visits: the elements of a [list], the
    characters of a [str], the keys of a [dict]. *)
Definition py_iter (o : value) : result (list value) :=
  match o with
  | VList l => Ok l
  | VStr s => Ok (VStr <$> chars s)
  | VDict d => Ok ((fun kv => VStr (fst kv)) <$> d)
  | _ => Raise TypeError
  end.

Definition is_str (s : string) (v : value) : bool :=
  match v with
  | VStr s' => String.eqb s' s
  | _ => false
  end.

(** [k in o] for a [str] key [k]: a key of a [dict], an element of a
    [list], a substring of a [str]. *)
Definition py_contains (k : string) (o : value) : result bool :=
  match o with
  | VDict d => Ok (match dict_lookup d k with Some _ => true | None => false end)
  | VList l => Ok (existsb (is_str k) l)
  | VStr s => Ok (str_contains k s)
  | _ => Raise TypeError
  end.

(** [sep.join(l)]: every item has to be a [str]. *)
Fixpoint strs_of (l : list value) : result (list string) :=
  match l with
  | [] => Ok []
  | VStr s :: l' => ss ← strs_of l'; Ok (s :: ss)
  | _ :: _ => Raise TypeError
  end.

Definition py_join (sep : string) (l : list value) : result string :=
  ss ← strs_of l; Ok (join sep ss).

(** ** [str] and [repr] of a value *)

Definition SQ : ascii := "039"%char.
Definition DQ : ascii := "034"%char.

Definition hex_digit (n : N) : ascii :=
  match String.get (N.to_nat n) "0123456789abcdef" with
  | Some c => c
  | None => "0"%char
  end.

(** Characters that [repr] writes as an escape because they are not
    printable: the control characters, DEL, U+0080 to U+00A0 and the soft
    hyphen. *)
Definition unprintable (c : ascii) : bool :=
  let n := N_of_ascii c in
  ((n <? 32) || (n =? 127) || ((128 <=? n) && (n <=? 160)) || (n =? 173))%N.

Definition repr_char (quote c : ascii) : string :=
  if Ascii.eqb c "\"%char then "\\"
  else if Ascii.eqb c quote then String "\"%char (String c EmptyString)
  else if Ascii.eqb c "009"%char then "\t"
  else if Ascii.eqb c "010"%char then "\n"
  else if Ascii.eqb c "013"%char then "\r"
  else if unprintable c then
    let n := N_of_ascii c in
    "\x" +:+ String (hex_digit (n / 16)) (String (hex_digit (n mod 16)) EmptyString)
  else String c EmptyString.

Fixpoint repr_chars (quote : ascii) (s : string) : string :=
  match s with
  | EmptyString => EmptyString
  | String c s' => repr_char quote c +:+ repr_chars quote s'
  end.

Fixpoint has_char (c : ascii) (s : string) : bool :=
  match s with
  | EmptyString => false
  | String c' s' => Ascii.eqb c' c || has_char c s'
  end.

(** [repr(s)]: single quotes, unless [s] has a single quote and no double
    quote. *)
Definition repr_str (s : string) : string :=
  let quote := if has_char SQ s && negb (has_char DQ s) then DQ else SQ in
  String quote (repr_chars quote s) +:+ String quote EmptyString.

Definition repr_int (n : Z) : string := NilZero.string_of_int (Z.to_int n).

Fixpoint zeros (n : nat) : string :=
  match n with
  | O => EmptyString
  | S n' => String "0"%char (zeros n')
  end.

(** [repr] of a float: positional notation when the decimal point falls
    within [-4 < decpt <= 16], exponent notation otherwise. *)
Definition repr_float (f : pyfloat) : string :=
  match f with
  | FNaN => "nan"
  | FInf neg => if neg then "-inf" else "inf"
  | FDec neg m e =>
    let ds := NilZero.string_of_uint (N.to_uint m) in
    let n := Z.of_nat (String.length ds) in
    let decpt := n + e in
    let body :=
      if (-4 <? decpt) && (decpt <=? 16) then
        if decpt <=? 0 then "0." +:+ zeros (Z.to_nat (- decpt)) +:+ ds
        else if n <=? decpt then ds +:+ zeros (Z.to_nat (decpt - n)) +:+ ".0"
        else substring 0 (Z.to_nat decpt) ds +:+ "." +:+
             substring (Z.to_nat decpt) (Z.to_nat (n - decpt)) ds
      else
        let x := decpt - 1 in
        let xs := NilZero.string_of_uint (N.to_uint (Z.to_N (Z.abs x))) in
        substring 0 1 ds +:+
        (if 1 <? n then "." +:+ substring 1 (Z.to_nat (n - 1)) ds else "") +:+
        "e" +:+ (if x <? 0 then "-" else "+") +:+
        (if Z.abs x <? 10 then "0" else "") +:+ xs in
    (if neg then "-" else "") +:+ body
  end.

Fixpoint repr (v : value) : string :=
  match v with
  | VNone => "None"
  | VBool b => if b then "True" else "False"
  | VInt n => repr_int n
  | VFloat f => repr_float f
  | VStr s => repr_str s
  | VList l => "[" +:+ join ", " (map repr l) +:+ "]"
  | VDict d =>
    "{" +:+ join ", " (map (fun kv => repr_str (fst kv) +:+ ": " +:+ repr (snd kv)) d) +:+ "}"
  end.

(** [str(v)] *)
Definition str (v : value) : string :=
  match v with
  | VStr s => s
  | _ => repr v
  end.

(** ** [base64.b64encode] *)

Definition b64_char (n : N) : ascii :=
  match String.get (N.to_nat n)
          "ABCDEFGHIJKLMNOPQRSTUVWXYZabcdefghijklmnopqrstuvwxyz0123456789+/" with
  | Some c => c
  | None => "="%char
  end.

Definition sextet (w : N) (i : N) : ascii := b64_char (N.land (N.shiftr w (6 * i)) 63).

(** Three bytes make four characters; a last group of one or two bytes is
    padded with [=]. The result is ASCII, so decoding it as UTF-8 gives the
    same characters. *)
Fixpoint b64encode (data : list byte) : string :=
  match data with
  | [] => EmptyString
  | [a] =>
    let w := N.shiftl (Byte.to_N a) 16 in
    String (sextet w 3) (String (sextet w 2) "==")
  | [a; b] =>
    let w := N.lor (N.shiftl (Byte.to_N a) 16) (N.shiftl (Byte.to_N b) 8) in
    String (sextet w 3) (String (sextet w 2) (String (sextet w 1) "="))
  | a :: b :: c :: rest =>
    let w := N.lor (N.lor (N.shiftl (Byte.to_N a) 16) (N.shiftl (Byte.to_N b) 8)) (Byte.to_N c) in
    String (sextet w 3) (String (sextet w 2) (String (sextet w 1) (String (sextet w 0)
      (b64encode rest))))
  end.

(** ** The outside world: environment and provider *)

(** What [requests.post(url, json=..., timeout=...)] is given. *)
Record Request : Type := mkRequest {
  url : string;
  json : value;
  timeout : Z
}.

(** What the code reads from a [requests.Response]: the status, the body as
    text, and the outcome of [resp.json()], [None] when the body is not JSON
    and the call raises. *)
Record Response : Type := mkResponse {
  status_code : Z;
  text : string;
  json_of : option value
}.

(** [requests.post] either returns a response or raises (connection error,
    timeout, DNS failure); [Fails msg] carries [str(e)]. *)
Inductive Outcome : Type :=
| Responds (resp : Response)
| Fails (msg : string).

(** The upload FastAPI hands to the image endpoint. *)
Record UploadFile : Type := mkUploadFile {
  content_type : option string;
  file_bytes : list byte
}.

(** Body of [POST /api/solve/text]. *)
Record TextRequest : Type := mkTextRequest {
  query : string;
  system_instruction : option string
}.

(** Computations that may call the provider: the state is the list of
    outbound requests made so far, oldest first. *)
Definition M (A : Type) : Type := list Request → result A * list Request.

#[global] Instance M_ret : MRet M := fun A a log => (Ok a, log).
#[global] Instance M_bind : MBind M := fun A B f m log =>
  match m log with
  | (Ok a, log') => f a log'
  | (Raise e, log') => (Raise e, log')
  end.

Definition raise {A} (e : exn) : M A := fun log => (Raise e, log).

Definition lift {A} (r : result A) : M A := fun log => (r, log).

Section Gateway.

(** [os.environ], and the provider: its answer to the [n]-th outbound
    request of the run. *)
Context (environ : gmap string string) (provider : nat → Request → Outcome).

Definition getenv (name : string) : option string := environ !! name.

Definition requests_post (req : Request) : M Outcome :=
  fun log => (Ok (provider (length log) req), log ++ [req]).

(** main.py, lines 26-30 *)
Definition _gemini_api_key : result string :=
  let key := opt_or (getenv "GEMINI_API_KEY") (getenv "GOOGLE_API_KEY") in
  match key with
  | Some k =>
    if negb (nonempty k)
    then Raise (HTTPException 500 "GEMINI_API_KEY not configured on server")
    else Ok k
  | None => Raise (HTTPException 500 "GEMINI_API_KEY not configured on server")
  end.

(** main.py, line 54: [[p.get("text", "") for p in parts if "text" in p]] *)
Fixpoint text_fields (parts : list value) : result (list value) :=
  match parts with
  | [] => Ok []
  | p :: parts' =>
    has ← py_contains "text" p;
    if has : bool then
      t ← py_get p "text" (VStr "");
      ts ← text_fields parts';
      Ok (t :: ts)
    else text_fields parts'
  end.

(** main.py, lines 50-61: the body of the [try] *)
Definition extract_text (data : value) : result value :=
  c ← py_get data "candidates" VNone;
  let candidates := py_or c (VList []) in
  first ← py_item0 candidates;
  content ← py_get first "content" (VDict []);
  parts ← py_get content "parts" (VList []);
  ps ← py_iter parts;
  texts ← text_fields ps;
  joined ← py_join NL (List.filter truthy texts);
  text ←
    (if negb (nonempty joined) then
       t ← py_get data "text" VNone;
       Ok (py_or t (VStr ""))
     else Ok (VStr joined));
  let text :=
    if negb (truthy text) then VStr "No response text returned from model."
    else text in
  Ok text.

Definition endpoint : string :=
  "https://generativelanguage.googleapis.com/v1beta/models/" +:+
  "gemini-1.5-flash:generateContent?key=".

(** main.py, lines 33-63 *)
Definition _gemini_generate (contents : value) : M value :=
  api_key ← lift _gemini_api_key;
  let url := endpoint +:+ api_key in
  let payload := VDict [("contents", contents)] in
  out ← requests_post (mkRequest url payload 60);
  match out with
  | Fails e => raise (HTTPException 502 ("Error contacting Gemini: " +:+ e))
  | Responds resp =>
    if negb (status_code resp =? 200) then
      let detail := slice_to 500 (text resp) in
      raise (HTTPException (status_code resp) ("Gemini API error: " +:+ detail))
    else
      data ← lift (match json_of resp with
                   | Some d => Ok d
                   | None => Raise JSONDecodeError
                   end);
      lift (try_except (extract_text data) (fun _ =>
        Ok (VStr ("Unable to parse model response. Raw: " +:+ slice_to 500 (str data)))))
  end.

(** main.py, lines 112-126 *)
Definition solve_text (body : TextRequest) : M value :=
  let user_instruction :=
    opt_or_str (system_instruction body)
      ("You are a helpful math tutor. Solve the problem step-by-step. " +:+
       "Show clear reasoning, intermediate steps, and final answer.") in
  let contents :=
    VList [
      VDict [("role", VStr "user"); ("parts", VList [
        VDict [("text", VStr user_instruction)];
        VDict [("text", VStr "Problem:")];
        VDict [("text", VStr (query body))]
      ])]
    ] in
  answer ← _gemini_generate contents;
  mret (VDict [("answer", answer)]).

(** main.py, lines 129-156. [image.read()] yields the uploaded bytes and
    [image.close()] has no effect the gateway can observe. *)
Definition solve_image (image : UploadFile) (query : option string) : M value :=
  let data := file_bytes image in
  match data with
  | [] => raise (HTTPException 400 "Empty image upload")
  | _ :: _ =>
    let mime := opt_or_str (content_type image) "image/png" in
    let b64 := b64encode data in
    let instruction :=
      "You are a helpful math tutor. Read the problem from the image and solve it " +:+
      "step-by-step. If the image is unclear, state assumptions." in
    let parts := [
      VDict [("text", VStr instruction)];
      VDict [("inline_data", VDict [("mime_type", VStr mime); ("data", VStr b64)])]
    ] in
    let parts :=
      match query with
      | Some q =>
        if nonempty q
        then parts ++ [VDict [("text", VStr "Additional context:")]] ++ [VDict [("text", VStr q)]]
        else parts
      | None => parts
      end in
    let contents := VList [VDict [("role", VStr "user"); ("parts", VList parts)]] in
    answer ← _gemini_generate contents;
    mret (VDict [("answer", answer)])
  end.

End Gateway.

(** ** Vocabulary of the specification *)

(** The request body and the message shapes of the provider's wire
    contract, used to state what the endpoints send. *)
Definition provider_request (key : string) (contents : value) : Request :=
  mkRequest (endpoint +:+ key) (VDict [("contents", contents)]) 60.

Definition user_message (parts : list value) : value :=
  VList [VDict [("role", VStr "user"); ("parts", VList parts)]].

Definition text_part (s : string) : value := VDict [("text", VStr s)].

Definition inline_part (mime data : string) : value :=
  VDict [("inline_data", VDict [("mime_type", VStr mime); ("data", VStr data)])].

Definition default_instruction : string :=
  "You are a helpful math tutor. Solve the problem step-by-step. Show clear reasoning, intermediate steps, and final answer.".

Definition image_instruction : string :=
  "You are a helpful math tutor. Read the problem from the image and solve it step-by-step. If the image is unclear, state assumptions.".

(** The error taxonomy of the specification, as the [HTTPException]s the
    code raises. *)
Definition ConfigurationError : exn :=
  HTTPException 500 "GEMINI_API_KEY not configured on server".

Definition InvalidInput : exn := HTTPException 400 "Empty image upload".

Definition UpstreamError (status : Z) (body : string) : exn :=
  HTTPException status ("Gemini API error: " +:+ slice_to 500 body).

(** An outcome is an upstream error when it is an [HTTPException] whose
    detail starts with the upstream prefix. *)
Definition is_upstream_error {A} (r : result A) : Prop :=
  ∃ status rest, r = Raise (HTTPException status ("Gemini API error: " +:+ rest)).

(** A variable that is unset, or set to the empty string. *)
Definition unset_or_empty (o : option string) : Prop := o = None ∨ o = Some EmptyString.

Definition key_configured (environ : gmap string string) : bool :=
  match _gemini_api_key environ with
  | Ok _ => true
  | Raise _ => false
  end.

(** [candidates[0].content.parts] of a reply that has the expected shape:
    an object whose [candidates] is a non-empty array of objects, the first
    with an object [content] holding an array [parts]. *)
Definition candidate_parts (data : value) : option (list value) :=
  match data with
  | VDict d =>
    match dict_lookup d "candidates" with
    | Some (VList (VDict first :: _)) =>
      match dict_lookup first "content" with
      | Some (VDict content) =>
        match dict_lookup content "parts" with
        | Some (VList parts) => Some parts
        | _ => None
        end
      | _ => None
      end
    | _ => None
    end
  | _ => None
  end.

(** A part of the expected shape: an object whose [text], when it has one,
    is a string (or holds nothing: null, false, zero, an empty container). *)
Definition part_ok (p : value) : bool :=
  match p with
  | VDict d =>
    match dict_lookup d "text" with
    | None | Some (VStr _) => true
    | Some t => negb (truthy t)
    end
  | _ => false
  end.

(** The [text] of a part that has one. *)
Definition part_text (p : value) : option string :=
  match p with
  | VDict d =>
    match dict_lookup d "text" with
    | Some (VStr s) => Some s
    | _ => None
    end
  | _ => None
  end.

(** Rule 1 of the extraction: the non-empty texts of the parts, in order,
    joined by newlines. *)
Definition joined_texts (parts : list value) : string :=
  join NL (List.filter nonempty (omap part_text parts)).

(** Rules 1 to 3 in order, the first that is not empty winning. *)
Definition first_nonempty_rule (data : value) (parts : list value) : value :=
  if nonempty (joined_texts parts) then VStr (joined_texts parts)
  else
    match py_get data "text" VNone with
    | Ok t => if truthy t then t else VStr "No response text returned from model."
    | Raise _ => VStr "No response text returned from model."
    end.

(** The instruction part as the specification words it: the caller's
    [system_instruction] unless it is omitted or null. *)
Definition instruction_as_specified (body : TextRequest) : string :=
  match system_instruction body with
  | Some s => s
  | None => default_instruction
  end.

(** A provider that gives the same outcome to every request. *)
Definition always (out : Outcome) : nat → Request → Outcome := fun _ _ => out.

(** A provider that answers 200 with the given parsed body, and a body of
    the expected shape around a list of parts. *)
Definition reply (data : value) : nat → Request → Outcome :=
  always (Responds (mkResponse 200 "" (Some data))).

Definition candidates_reply (parts : list value) : value :=
  VDict [("candidates", VList [VDict [("content", VDict [("parts", VList parts)])]])].

(** ** The liveness and diagnostic endpoints *)

(** main.py, lines 66-68 *)
Definition read_root : value := VDict [("message", VStr "Hello from FastAPI Backend!")].

(** main.py, lines 71-73 *)
Definition hello : value := VDict [("message", VStr "Hello from the backend API!")].

(** [d[k] = v]: an existing key keeps its place, a new one goes last. *)
Fixpoint dict_set (d : list (string * value)) (k : string) (v : value)
    : list (string * value) :=
  match d with
  | [] => [(k, v)]
  | (k', v') :: d' =>
    if String.eqb k' k then (k', v) :: d' else (k', v') :: dict_set d' k v
  end.

(** What [db.list_collection_names()] does: it returns the names, or raises
    an exception whose [str] is [msg]. *)
Inductive Listing : Type :=
| Listed (names : list value)
| ListingFails (msg : string).

(** The [db] object of the optional [database] module, as the diagnostic
    endpoint uses it: its [name] attribute, when it has one, and the
    outcome of listing its collections. *)
Record Database : Type := mkDatabase {
  db_name : option value;
  list_collection_names : Listing
}.

(** What [from database import db] does: the module or the name is missing
    ([ImportError]), the import raises another exception whose [str] is
    [msg], or it binds [db], which may be [None]. *)
Inductive DbImport : Type :=
| ImportError
| ImportRaises (msg : string)
| Imported (db : option Database).

(** main.py, lines 76-109. The status marks lie outside Latin-1 and are
    written as in the source, which makes them their UTF-8 bytes here; they
    are only ever joined to other text, the slices are taken of the
    exception messages alone. *)
Definition test_database (environ : gmap string string) (import : DbImport) : value :=
  let response := [
    ("backend", VStr "✅ Running");
    ("database", VStr "❌ Not Available");
    ("database_url", VNone);
    ("database_name", VNone);
    ("connection_status", VStr "Not Connected");
    ("collections", VList [])
  ] in
  let response :=
    match import with
    | Imported (Some db) =>
      let response := dict_set response "database" (VStr "✅ Available") in
      let response := dict_set response "database_url" (VStr "✅ Configured") in
      let response :=
        dict_set response "database_name"
          (match db_name db with Some name => name | None => VStr "✅ Connected" end) in
      let response := dict_set response "connection_status" (VStr "Connected") in
      match list_collection_names db with
      | Listed collections =>
        let response := dict_set response "collections" (VList (take 10 collections)) in
        dict_set response "database" (VStr "✅ Connected & Working")
      | ListingFails e =>
        dict_set response "database"
          (VStr ("⚠️  Connected but Error: " +:+ slice_to 50 e))
      end
    | Imported None =>
      dict_set response "database" (VStr "⚠️  Available but not initialized")
    | ImportError =>
      dict_set response "database"
        (VStr "❌ Database module not found (run enable-database first)")
    | ImportRaises e =>
      dict_set response "database" (VStr ("❌ Error: " +:+ slice_to 50 e))
    end in
  let response :=
    dict_set response "database_url"
      (VStr (if nonempty (default EmptyString (getenv environ "DATABASE_URL"))
             then "✅ Set" else "❌ Not Set")) in
  let response :=
    dict_set response "database_name"
      (VStr (if nonempty (default EmptyString (getenv environ "DATABASE_NAME"))
             then "✅ Set" else "❌ Not Set")) in
  VDict response.

(** ** Further vocabulary *)

(** The first candidate of a reply, when the reply is an object whose
    [candidates] is an array that starts with an object. *)
Definition first_candidate (data : value) : option (list (string * value)) :=
  match data with
  | VDict d =>
    match dict_lookup d "candidates" with
    | Some (VList (VDict first :: _)) => Some first
    | _ => None
    end
  | _ => None
  end.

(** The answer when the parts give no text: the top-level [text] if it holds
    something, the fixed sentence otherwise. *)
Definition fallback_answer (d : list (string * value)) : value :=
  match dict_lookup d "text" with
  | Some t => if truthy t then t else VStr "No response text returned from model."
  | None => VStr "No response text returned from model."
  end.

(** A part, an object, whose [text] holds something that is not a string. *)
Definition bad_text_part (p : value) : bool :=
  match p with
  | VDict d =>
    match dict_lookup d "text" with
    | Some (VStr _) | None => false
    | Some t => truthy t
    end
  | _ => false
  end.

Definition is_object (v : value) : bool :=
  match v with
  | VDict _ => true
  | _ => false
  end.

(** The requests a computation adds to the log. *)
Definition calls_of {A} (m : M A) (log : list Request) : list Request :=
  drop (length log) (snd (m log)).

(** * Properties *)

(** ** How a provider call unfolds *)

(** Without a key the call raises at once and the log is untouched. *)
Lemma generate_without_key environ provider contents log e :
  _gemini_api_key environ = Raise e →
  _gemini_generate environ provider contents log = (Raise e, log).
Proof.
  intros Hkey. unfold _gemini_generate, mbind, M_bind, lift. by rewrite Hkey.
Qed.

(** With a key exactly one request is logged, and the result is decided by
    the provider's outcome. *)
Lemma generate_with_key environ provider contents log k :
  _gemini_api_key environ = Ok k →
  _gemini_generate environ provider contents log =
    (match provider (length log) (provider_request k contents) with
     | Fails msg => Raise (HTTPException 502 ("Error contacting Gemini: " +:+ msg))
     | Responds resp =>
       if status_code resp =? 200 then
         match json_of resp with
         | Some data =>
           try_except (extract_text data) (fun _ =>
             Ok (VStr ("Unable to parse model response. Raw: " +:+ slice_to 500 (str data))))
         | None => Raise JSONDecodeError
         end
       else Raise (UpstreamError (status_code resp) (text resp))
     end, log ++ [provider_request k contents]).
Proof.
  intros Hkey.
  unfold _gemini_generate, mbind, M_bind, lift, requests_post, raise.
  rewrite Hkey. fold (provider_request k contents).
  destruct (provider _ _) as [resp | msg]; [| reflexivity].
  destruct (status_code resp =? 200); simpl; [| reflexivity].
  by destruct (json_of resp).
Qed.

(** The key is the first of the two variables that holds a non-empty
    string. *)
Lemma api_key_cases environ :
  match environ !! "GEMINI_API_KEY", environ !! "GOOGLE_API_KEY" with
  | Some (String c k), _ => _gemini_api_key environ = Ok (String c k)
  | _, Some (String c k) => _gemini_api_key environ = Ok (String c k)
  | _, _ => _gemini_api_key environ = Raise ConfigurationError
  end.
Proof.
  unfold _gemini_api_key, getenv, opt_or.
  destruct (environ !! "GEMINI_API_KEY") as [[| c k] |];
    destruct (environ !! "GOOGLE_API_KEY") as [[| c' k'] |]; reflexivity.
Qed.

Lemma solve_text_eq environ provider body log :
  solve_text environ provider body log =
    match _gemini_generate environ provider
            (user_message [text_part (opt_or_str (system_instruction body) default_instruction);
                           text_part "Problem:"; text_part (query body)]) log with
    | (Ok answer, log') => (Ok (VDict [("answer", answer)]), log')
    | (Raise e, log') => (Raise e, log')
    end.
Proof. reflexivity. Qed.

Lemma solve_image_eq environ provider image q log :
  file_bytes image ≠ [] →
  solve_image environ provider image q log =
    match _gemini_generate environ provider
            (user_message
               ([text_part image_instruction;
                 inline_part (opt_or_str (content_type image) "image/png")
                             (b64encode (file_bytes image))] ++
                match q with
                | Some s => if nonempty s then [text_part "Additional context:"; text_part s] else []
                | None => []
                end)) log with
    | (Ok answer, log') => (Ok (VDict [("answer", answer)]), log')
    | (Raise e, log') => (Raise e, log')
    end.
Proof.
  intros Hdata. unfold solve_image.
  destruct (file_bytes image) as [| b bs] eqn:E; [done |].
  destruct q as [[| c s] |]; reflexivity.
Qed.

(** ** Credential resolution *)

(** C8: the credential is the first non-empty value among GEMINI_API_KEY and
    GOOGLE_API_KEY, in that order; in particular, when GEMINI_API_KEY is set
    to the empty string and GOOGLE_API_KEY is non-empty, the GOOGLE_API_KEY
    value is the key, and it is the one placed in the URL of the provider
    call. *)
Theorem credential_first_nonempty (environ : gmap string string) :
  (∀ k, environ !! "GEMINI_API_KEY" = Some k → k ≠ EmptyString →
        _gemini_api_key environ = Ok k) ∧
  (∀ k, unset_or_empty (environ !! "GEMINI_API_KEY") →
        environ !! "GOOGLE_API_KEY" = Some k → k ≠ EmptyString →
        _gemini_api_key environ = Ok k ∧
        ∀ provider contents log,
          snd (_gemini_generate environ provider contents log) =
            log ++ [mkRequest (endpoint +:+ k) (VDict [("contents", contents)]) 60]).
Proof.
  pose proof (api_key_cases environ) as Hcases.
  split.
  - intros k Hk Hne. rewrite Hk in Hcases. by destruct k.
  - intros k Hgem Hgoo Hne.
    assert (Hkey : _gemini_api_key environ = Ok k).
    { rewrite Hgoo in Hcases. destruct k as [| c k]; [done |].
      by destruct Hgem as [Hg | Hg]; rewrite Hg in Hcases. }
    split; [exact Hkey |].
    intros provider contents log.
    by rewrite (generate_with_key _ _ _ _ _ Hkey).
Qed.

Lemma credential_first_nonempty_witness :
  let environ : gmap string string :=
    {[ "GEMINI_API_KEY" := EmptyString; "GOOGLE_API_KEY" := "g-key" ]} in
  _gemini_api_key environ = Ok "g-key" ∧
  snd (_gemini_generate environ (always (Fails "down")) (VList []) []) =
    [mkRequest (endpoint +:+ "g-key") (VDict [("contents", VList [])]) 60].
Proof.
  intros environ.
  destruct (credential_first_nonempty environ) as [_ H].
  destruct (H "g-key") as [Hkey Hurl].
  - right. reflexivity.
  - reflexivity.
  - discriminate.
  - split; [exact Hkey | exact (Hurl (always (Fails "down")) (VList []) [])].
Defined.

(** C6: when neither variable holds a non-empty value, both endpoints fail
    with the configuration error (HTTP 500, "GEMINI_API_KEY not configured
    on server") and the log of outbound calls is left as it was. *)
Theorem no_credential_no_call (environ : gmap string string) provider log :
  unset_or_empty (environ !! "GEMINI_API_KEY") →
  unset_or_empty (environ !! "GOOGLE_API_KEY") →
  (∀ body,
     solve_text environ provider body log =
       (Raise (HTTPException 500 "GEMINI_API_KEY not configured on server"), log)) ∧
  (∀ image q, file_bytes image ≠ [] →
     solve_image environ provider image q log =
       (Raise (HTTPException 500 "GEMINI_API_KEY not configured on server"), log)).
Proof.
  intros Hgem Hgoo.
  assert (Hkey : _gemini_api_key environ = Raise ConfigurationError).
  { pose proof (api_key_cases environ) as Hcases.
    by destruct Hgem as [Hg | Hg], Hgoo as [Hg' | Hg']; rewrite Hg, Hg' in Hcases. }
  split.
  - intros body. rewrite solve_text_eq.
    by rewrite (generate_without_key _ _ _ _ _ Hkey).
  - intros image q Hdata. rewrite solve_image_eq by done.
    by rewrite (generate_without_key _ _ _ _ _ Hkey).
Qed.

Lemma no_credential_no_call_witness :
  let environ : gmap string string := {[ "GEMINI_API_KEY" := EmptyString ]} in
  let up := always (Responds (mkResponse 200 "{}" (Some (VDict [])))) in
  solve_text environ up (mkTextRequest "2+2" None) [] = (Raise ConfigurationError, []) ∧
  solve_image environ up (mkUploadFile (Some "image/png") [x89; x50]) (Some "area?") [] =
    (Raise ConfigurationError, []).
Proof.
  intros environ up.
  destruct (no_credential_no_call environ up []) as [Htext Himage].
  - right. reflexivity.
  - left. reflexivity.
  - split; [apply Htext | apply Himage; discriminate].
Defined.

(** ** Input validation *)

(** C5: an empty upload fails with HTTP 400 "Empty image upload" whatever
    the query, the environment and the provider are, and no outbound call
    is made. *)
Theorem empty_image_rejected (environ : gmap string string) provider image q log :
  file_bytes image = [] →
  solve_image environ provider image q log =
    (Raise (HTTPException 400 "Empty image upload"), log).
Proof. intros Hdata. unfold solve_image. by rewrite Hdata. Qed.

Lemma empty_image_rejected_witness :
  solve_image {[ "GEMINI_API_KEY" := "k" ]}
    (always (Responds (mkResponse 200 "{}" (Some (VDict [])))))
    (mkUploadFile (Some "image/jpeg") []) (Some "what is x?") [] =
    (Raise InvalidInput, []).
Proof. apply empty_image_rejected. reflexivity. Defined.

(** ** Request shaping *)

(** C3, as amended: the text endpoint sends one provider message, role
    "user", with three text parts in order: the instruction, the label
    "Problem:", and the query verbatim. The instruction is the caller's
    [system_instruction] when that is a non-empty string, and the default
    tutoring instruction when it is omitted, null or the empty string. *)
Theorem solve_text_message (environ : gmap string string) provider body log k :
  _gemini_api_key environ = Ok k →
  ∃ instruction,
    snd (solve_text environ provider body log) =
      log ++ [provider_request k
                (user_message [text_part instruction; text_part "Problem:";
                               text_part (query body)])] ∧
    (∀ s, system_instruction body = Some s → s ≠ EmptyString → instruction = s) ∧
    (unset_or_empty (system_instruction body) → instruction = default_instruction).
Proof.
  intros Hkey.
  exists (opt_or_str (system_instruction body) default_instruction).
  split; [| split].
  - rewrite solve_text_eq, (generate_with_key _ _ _ _ _ Hkey).
    by destruct (match provider _ _ with Responds _ => _ | Fails _ => _ end).
  - intros s -> Hne. by destruct s.
  - by intros [-> | ->].
Qed.

Lemma solve_text_message_witness :
  ∃ instruction,
    snd (solve_text {[ "GEMINI_API_KEY" := "k" ]} (always (Fails "timed out"))
           (mkTextRequest "x^2 = 9" (Some "Answer in French.")) []) =
      [provider_request "k"
         (user_message [text_part instruction; text_part "Problem:";
                        text_part "x^2 = 9"])] ∧
    instruction = "Answer in French.".
Proof.
  destruct (solve_text_message {[ "GEMINI_API_KEY" := "k" ]} (always (Fails "timed out"))
              (mkTextRequest "x^2 = 9" (Some "Answer in French.")) [] "k")
    as (instruction & Hsent & Hgiven & _).
  - reflexivity.
  - exists instruction. split; [exact Hsent |].
    apply Hgiven; [reflexivity | discriminate].
Defined.

(** C3 as stated fails: a caller-supplied [system_instruction] that is the
    empty string is neither omitted nor null, yet the message carries the
    default instruction in its place. *)
Lemma solve_text_empty_instruction :
  let body := mkTextRequest "2+2" (Some EmptyString) in
  system_instruction body ≠ None ∧
  snd (solve_text {[ "GEMINI_API_KEY" := "k" ]} (always (Fails "timed out")) body []) =
    [provider_request "k"
       (user_message [text_part default_instruction; text_part "Problem:"; text_part "2+2"])] ∧
  snd (solve_text {[ "GEMINI_API_KEY" := "k" ]} (always (Fails "timed out")) body []) ≠
    [provider_request "k"
       (user_message [text_part (instruction_as_specified body); text_part "Problem:";
                      text_part "2+2"])].
Proof.
  intros body. split; [discriminate |]. split; [reflexivity |].
  vm_compute. discriminate.
Qed.

(** C4: for a non-empty upload the image endpoint sends one provider
    message, role "user". Without a query it has two parts, the fixed
    instruction and the inline attachment with the media type and the
    base64 data; with a non-empty query it has four, the two more being the
    label "Additional context:" and the query. The media type is the
    declared one. *)
Theorem solve_image_message (environ : gmap string string) provider image q log k :
  _gemini_api_key environ = Ok k →
  file_bytes image ≠ [] →
  ∃ mime parts,
    snd (solve_image environ provider image q log) =
      log ++ [provider_request k (user_message parts)] ∧
    (∀ m, content_type image = Some m → m ≠ EmptyString → mime = m) ∧
    (q = None →
       parts = [text_part image_instruction;
                inline_part mime (b64encode (file_bytes image))] ∧
       length parts = 2%nat) ∧
    (∀ s, q = Some s → s ≠ EmptyString →
       parts = [text_part image_instruction;
                inline_part mime (b64encode (file_bytes image));
                text_part "Additional context:"; text_part s] ∧
       length parts = 4%nat).
Proof.
  intros Hkey Hdata.
  exists (opt_or_str (content_type image) "image/png"). eexists.
  split; [| split; [| split]].
  - rewrite solve_image_eq, (generate_with_key _ _ _ _ _ Hkey) by done.
    by destruct (match provider _ _ with Responds _ => _ | Fails _ => _ end).
  - intros m -> Hne. by destruct m.
  - by intros ->.
  - intros s -> Hne. by destruct s.
Qed.

Lemma solve_image_message_witness :
  ∃ mime parts,
    snd (solve_image {[ "GOOGLE_API_KEY" := "k" ]} (always (Fails "timed out"))
           (mkUploadFile (Some "image/jpeg") [x4d; x61; x6e]) (Some "solve for x") []) =
      [provider_request "k" (user_message parts)] ∧
    mime = "image/jpeg" ∧
    parts = [text_part image_instruction; inline_part "image/jpeg" "TWFu";
             text_part "Additional context:"; text_part "solve for x"].
Proof.
  destruct (solve_image_message {[ "GOOGLE_API_KEY" := "k" ]} (always (Fails "timed out"))
              (mkUploadFile (Some "image/jpeg") [x4d; x61; x6e]) (Some "solve for x") [] "k")
    as (mime & parts & Hsent & Hmime & _ & Hquery).
  - reflexivity.
  - discriminate.
  - exists mime, parts. split; [exact Hsent |].
    assert (Hm : mime = "image/jpeg") by (apply Hmime; [reflexivity | discriminate]).
    split; [exact Hm |].
    destruct (Hquery "solve for x") as [Hparts _]; [reflexivity | discriminate |].
    rewrite Hparts, Hm. reflexivity.
Defined.

(** C10: an upload whose content type is absent or empty is handled as one
    declared "image/png": the call has the same outcome, and the inline
    attachment that is sent has media type "image/png"; with a provider
    that answers 200 with a JSON body the endpoint returns an answer. *)
Theorem missing_content_type_defaults (environ : gmap string string) provider image q log :
  unset_or_empty (content_type image) →
  file_bytes image ≠ [] →
  solve_image environ provider image q log =
    solve_image environ provider (mkUploadFile (Some "image/png") (file_bytes image)) q log ∧
  (∀ k, _gemini_api_key environ = Ok k →
     ∃ more,
       snd (solve_image environ provider image q log) =
         log ++ [provider_request k
                   (user_message (text_part image_instruction ::
                                  inline_part "image/png" (b64encode (file_bytes image)) ::
                                  more))]) ∧
  (∀ k, _gemini_api_key environ = Ok k →
     (∀ req, ∃ resp data, provider (length log) req = Responds resp ∧
                          status_code resp = 200 ∧ json_of resp = Some data) →
     ∃ answer, fst (solve_image environ provider image q log) = Ok (VDict [("answer", answer)])).
Proof.
  intros Htype Hdata.
  assert (Hmime : opt_or_str (content_type image) "image/png" = "image/png")
    by (by destruct Htype as [-> | ->]).
  split; [| split].
  - rewrite !solve_image_eq by done. simpl. by rewrite Hmime.
  - intros k Hkey. eexists.
    rewrite solve_image_eq, (generate_with_key _ _ _ _ _ Hkey), Hmime by done.
    by destruct (match provider _ _ with Responds _ => _ | Fails _ => _ end).
  - intros k Hkey Hanswers.
    rewrite solve_image_eq, (generate_with_key _ _ _ _ _ Hkey) by done.
    destruct (Hanswers (provider_request k (user_message
                ([text_part image_instruction;
                  inline_part (opt_or_str (content_type image) "image/png")
                              (b64encode (file_bytes image))] ++
                 match q with
                 | Some s => if nonempty s then [text_part "Additional context:"; text_part s] else []
                 | None => []
                 end)))) as (resp & data & -> & -> & ->).
    simpl. destruct (extract_text data) as [v | e]; simpl; eauto.
Qed.

Lemma missing_content_type_defaults_witness :
  ∃ answer,
    fst (solve_image {[ "GEMINI_API_KEY" := "k" ]}
           (always (Responds (mkResponse 200 "{}" (Some (VDict [])))))
           (mkUploadFile None [x4d]) None []) = Ok (VDict [("answer", answer)]).
Proof.
  destruct (missing_content_type_defaults {[ "GEMINI_API_KEY" := "k" ]}
              (always (Responds (mkResponse 200 "{}" (Some (VDict [])))))
              (mkUploadFile None [x4d]) None []) as (_ & _ & Hanswer).
  - left. reflexivity.
  - discriminate.
  - apply (Hanswer "k"); [reflexivity |].
    intros req. exists (mkResponse 200 "{}" (Some (VDict []))), (VDict []).
    repeat split.
Defined.

(** ** One-shot provider calls *)

(** C9, as amended: a solve request makes at most one outbound call, never
    a second one. It makes exactly one when a credential is configured (and,
    for an image, the upload is not empty), whatever the provider does, and
    none when the request is refused before the call. *)
Theorem at_most_one_call (environ : gmap string string) provider log :
  (∀ body, ∃ calls,
     snd (solve_text environ provider body log) = log ++ calls ∧
     length calls = if key_configured environ then 1%nat else 0%nat) ∧
  (∀ image q, ∃ calls,
     snd (solve_image environ provider image q log) = log ++ calls ∧
     length calls =
       match file_bytes image with
       | [] => 0%nat
       | _ :: _ => if key_configured environ then 1%nat else 0%nat
       end).
Proof.
  assert (Hgen : ∀ contents, ∃ calls,
            snd (match _gemini_generate environ provider contents log with
                 | (Ok answer, log') => (Ok (VDict [("answer", answer)]), log')
                 | (Raise e, log') => (Raise e, log')
                 end) = log ++ calls ∧
            length calls = if key_configured environ then 1%nat else 0%nat).
  { intros contents. unfold key_configured.
    destruct (_gemini_api_key environ) as [k | e] eqn:Hkey.
    - exists [provider_request k contents].
      rewrite (generate_with_key _ _ _ _ _ Hkey).
      by destruct (match provider _ _ with Responds _ => _ | Fails _ => _ end).
    - exists []. rewrite (generate_without_key _ _ _ _ _ Hkey).
      by rewrite app_nil_r. }
  split.
  - intros body. rewrite solve_text_eq. apply Hgen.
  - intros image q. destruct (file_bytes image) as [| b bs] eqn:Hdata.
    + exists []. unfold solve_image. rewrite Hdata. by rewrite app_nil_r.
    + rewrite solve_image_eq by (by rewrite Hdata). apply Hgen.
Qed.

(** C9 as stated fails: without a credential a solve request is refused
    before the provider is called, so it makes no outbound call. *)
Lemma refused_request_makes_no_call :
  let up := always (Responds (mkResponse 200 "{}" (Some (VDict [])))) in
  solve_text ∅ up (mkTextRequest "2+2" None) [] = (Raise ConfigurationError, []) ∧
  length (snd (solve_text ∅ up (mkTextRequest "2+2" None) [])) = 0%nat.
Proof. split; reflexivity. Qed.

(** ** Provider failures *)

Lemma api_key_raises environ e :
  _gemini_api_key environ = Raise e → e = ConfigurationError.
Proof.
  pose proof (api_key_cases environ) as Hcases. intros Hkey.
  destruct (environ !! "GEMINI_API_KEY") as [[| c k] |];
    destruct (environ !! "GOOGLE_API_KEY") as [[| c' k'] |]; congruence.
Qed.

(** C7, as amended: the call fails with the upstream error exactly when the
    provider answers with a status other than 200; the error then carries
    the provider's status and "Gemini API error: " followed by the first 500
    characters of the body. A 200 answer never gives the upstream error. *)
Theorem upstream_error_iff_not_200 (environ : gmap string string) provider contents log :
  (is_upstream_error (fst (_gemini_generate environ provider contents log)) ↔
   ∃ k resp,
     _gemini_api_key environ = Ok k ∧
     provider (length log) (provider_request k contents) = Responds resp ∧
     status_code resp ≠ 200) ∧
  (∀ k resp,
     _gemini_api_key environ = Ok k →
     provider (length log) (provider_request k contents) = Responds resp →
     status_code resp ≠ 200 →
     fst (_gemini_generate environ provider contents log) =
       Raise (HTTPException (status_code resp)
                ("Gemini API error: " +:+ slice_to 500 (text resp)))).
Proof.
  assert (Hraise : ∀ k resp,
            _gemini_api_key environ = Ok k →
            provider (length log) (provider_request k contents) = Responds resp →
            status_code resp ≠ 200 →
            fst (_gemini_generate environ provider contents log) =
              Raise (UpstreamError (status_code resp) (text resp))).
  { intros k resp Hkey Hresp Hstatus.
    rewrite (generate_with_key _ _ _ _ _ Hkey), Hresp. simpl.
    by destruct (Z.eqb_spec (status_code resp) 200). }
  split; [split |]; [| | exact Hraise].
  - intros (status & rest & Hup).
    destruct (_gemini_api_key environ) as [k | e] eqn:Hkey.
    + rewrite (generate_with_key _ _ _ _ _ Hkey) in Hup. simpl in Hup.
      destruct (provider _ _) as [resp | msg] eqn:Hresp; [| discriminate].
      exists k, resp. split_and!; [done.. |].
      intros Hstatus. rewrite Hstatus in Hup. simpl in Hup.
      destruct (json_of resp) as [data |]; [| discriminate].
      by destruct (extract_text data).
    + rewrite (generate_without_key _ _ _ _ _ Hkey) in Hup. simpl in Hup.
      apply api_key_raises in Hkey as ->. discriminate.
  - intros (k & resp & Hkey & Hresp & Hstatus).
    rewrite (Hraise k resp Hkey Hresp Hstatus). by eexists _, _.
Qed.

Lemma upstream_error_iff_not_200_witness :
  fst (_gemini_generate {[ "GEMINI_API_KEY" := "k" ]}
         (always (Responds (mkResponse 429 "rate limited" None)))
         (user_message [text_part "hi"]) []) =
    Raise (HTTPException 429 "Gemini API error: rate limited").
Proof.
  destruct (upstream_error_iff_not_200 {[ "GEMINI_API_KEY" := "k" ]}
              (always (Responds (mkResponse 429 "rate limited" None)))
              (user_message [text_part "hi"]) []) as [_ Hraise].
  apply (Hraise "k" (mkResponse 429 "rate limited" None)); [reflexivity | reflexivity |].
  discriminate.
Defined.

(** C7 as stated fails: 201 is a 2xx status, and the call still fails with
    the upstream error. *)
Lemma status_201_is_upstream_error :
  let resp := mkResponse 201 "created" (Some (VDict [])) in
  (200 ≤ status_code resp < 300) ∧
  fst (_gemini_generate {[ "GEMINI_API_KEY" := "k" ]} (always (Responds resp))
         (user_message [text_part "hi"]) []) =
    Raise (HTTPException 201 "Gemini API error: created") ∧
  is_upstream_error
    (fst (_gemini_generate {[ "GEMINI_API_KEY" := "k" ]} (always (Responds resp))
            (user_message [text_part "hi"]) [])).
Proof.
  intros resp. split; [simpl; lia |]. split; [reflexivity |].
  exists 201, "created". reflexivity.
Qed.

(** ** Response unwrapping *)

(** Collecting the text fields never fails on parts of the expected shape,
    and what survives the truth test are the non-empty texts, in order. *)
Lemma text_fields_of_ok_parts parts :
  forallb part_ok parts = true →
  ∃ ts, text_fields parts = Ok ts ∧
        strs_of (List.filter truthy ts) = Ok (List.filter nonempty (omap part_text parts)).
Proof.
  induction parts as [| p parts IH]; intros Hok.
  - by exists [].
  - simpl in Hok. apply andb_prop in Hok as [Hp Hrest].
    destruct (IH Hrest) as (ts & Hts & Hstrs).
    destruct p as [| | | | | | d]; try discriminate.
    simpl in *.
    destruct (dict_lookup d "text") as [t |] eqn:Hlookup; simpl.
    + rewrite Hts. simpl. exists (t :: ts). split; [done |].
      destruct t as [| b | n | f | s | l | d']; simpl in *;
        try exact Hstrs;
        try (apply negb_true_iff in Hp; rewrite Hp; exact Hstrs).
      destruct (nonempty s); simpl; [| exact Hstrs].
      by rewrite Hstrs.
    + by exists ts.
Qed.

(** The extraction on a reply of the expected shape. *)
Lemma extract_text_of_parts data parts :
  candidate_parts data = Some parts →
  forallb part_ok parts = true →
  extract_text data = Ok (first_nonempty_rule data parts).
Proof.
  intros Hshape Hok.
  destruct (text_fields_of_ok_parts parts Hok) as (ts & Hts & Hstrs).
  destruct data as [| | | | | | d]; try discriminate.
  unfold candidate_parts in Hshape.
  destruct (dict_lookup d "candidates") as [[| | | | | [| [| | | | | | first] rest] |] |] eqn:Hc;
    try discriminate.
  destruct (dict_lookup first "content") as [[| | | | | | content] |] eqn:Hcontent;
    try discriminate.
  destruct (dict_lookup content "parts") as [[| | | | | ps |] |] eqn:Hparts;
    try discriminate.
  injection Hshape as ->.
  unfold extract_text, first_nonempty_rule, joined_texts, py_join.
  simpl. rewrite Hc. simpl. rewrite Hcontent. simpl. rewrite Hparts. simpl.
  rewrite Hts. simpl. rewrite Hstrs. simpl.
  destruct (nonempty (join NL _)) eqn:Hjoined; simpl.
  - by rewrite Hjoined.
  - unfold py_or.
    destruct (dict_lookup d "text") as [t |]; simpl; [| done].
    destruct (truthy t) eqn:Ht; simpl; by rewrite ?Ht.
Qed.

(** C1: for a 200 reply whose JSON body has [candidates[0].content.parts],
    the call returns the non-empty [text] fields of the parts, in order,
    joined by newlines (parts without a [text] are skipped); when that is
    empty, the top-level [text]; and when that is empty too, the literal
    "No response text returned from model.". *)
Theorem extraction_first_nonempty (environ : gmap string string) provider contents log
    k resp data parts :
  _gemini_api_key environ = Ok k →
  provider (length log) (provider_request k contents) = Responds resp →
  status_code resp = 200 →
  json_of resp = Some data →
  candidate_parts data = Some parts →
  forallb part_ok parts = true →
  fst (_gemini_generate environ provider contents log) =
    Ok (if nonempty (joined_texts parts) then VStr (joined_texts parts)
        else match py_get data "text" VNone with
             | Ok t => if truthy t then t else VStr "No response text returned from model."
             | Raise _ => VStr "No response text returned from model."
             end).
Proof.
  intros Hkey Hresp Hstatus Hjson Hshape Hok.
  rewrite (generate_with_key _ _ _ _ _ Hkey), Hresp, Hstatus, Hjson. simpl.
  by rewrite (extract_text_of_parts data parts Hshape Hok).
Qed.

Lemma extraction_first_nonempty_witness :
  let data :=
    VDict [("candidates", VList [VDict [("content", VDict [("parts", VList [
      VDict [("text", VStr "a")];
      VDict [("inline_data", VDict [])];
      VDict [("text", VStr EmptyString)];
      VDict [("text", VStr "b")]])])]])] in
  fst (_gemini_generate {[ "GEMINI_API_KEY" := "k" ]}
         (always (Responds (mkResponse 200 "..." (Some data))))
         (user_message [text_part "hi"]) []) = Ok (VStr ("a" +:+ NL +:+ "b")).
Proof.
  intros data.
  apply (extraction_first_nonempty {[ "GEMINI_API_KEY" := "k" ]}
           (always (Responds (mkResponse 200 "..." (Some data))))
           (user_message [text_part "hi"]) [] "k" (mkResponse 200 "..." (Some data)) data
           [VDict [("text", VStr "a")]; VDict [("inline_data", VDict [])];
            VDict [("text", VStr EmptyString)]; VDict [("text", VStr "b")]]);
    reflexivity.
Defined.

(** A 200 reply whose body parses as JSON always yields a value: whatever
    the extraction raises is caught. *)
Lemma generate_total_on_json environ provider contents log k resp data :
  _gemini_api_key environ = Ok k →
  provider (length log) (provider_request k contents) = Responds resp →
  status_code resp = 200 →
  json_of resp = Some data →
  ∃ answer, fst (_gemini_generate environ provider contents log) = Ok answer.
Proof.
  intros Hkey Hresp Hstatus Hjson.
  rewrite (generate_with_key _ _ _ _ _ Hkey), Hresp, Hstatus, Hjson. simpl.
  destruct (extract_text data); simpl; eauto.
Qed.

(** Any exception of the extraction turns into the best-effort string. *)
Lemma extraction_failure_best_effort environ provider contents log k resp data e :
  _gemini_api_key environ = Ok k →
  provider (length log) (provider_request k contents) = Responds resp →
  status_code resp = 200 →
  json_of resp = Some data →
  extract_text data = Raise e →
  fst (_gemini_generate environ provider contents log) =
    Ok (VStr ("Unable to parse model response. Raw: " +:+ slice_to 500 (str data))).
Proof.
  intros Hkey Hresp Hstatus Hjson Hraise.
  rewrite (generate_with_key _ _ _ _ _ Hkey), Hresp, Hstatus, Hjson. simpl.
  by rewrite Hraise.
Qed.

(** A reply without [candidates] (or with a null or empty one) is such a
    failure: indexing the empty list raises. *)
Lemma missing_candidates_raises d :
  match dict_lookup d "candidates" with
  | Some c => truthy c = false
  | None => True
  end →
  extract_text (VDict d) = Raise IndexError.
Proof.
  intros Hc. unfold extract_text, py_or. simpl.
  destruct (dict_lookup d "candidates") as [c |]; [| done].
  by rewrite Hc.
Qed.

(** A body that is not an object fails at the first [.get]. *)
Lemma non_object_raises data :
  match data with VDict _ => False | _ => True end →
  extract_text data = Raise AttributeError.
Proof. by destruct data. Qed.

(** A 200 reply whose body is not JSON: [resp.json()] raises outside the
    [try], and the exception leaves the routine. *)
Lemma non_json_reply_raises environ provider contents log k resp :
  _gemini_api_key environ = Ok k →
  provider (length log) (provider_request k contents) = Responds resp →
  status_code resp = 200 →
  json_of resp = None →
  _gemini_generate environ provider contents log =
    (Raise JSONDecodeError, log ++ [provider_request k contents]).
Proof.
  intros Hkey Hresp Hstatus Hjson.
  by rewrite (generate_with_key _ _ _ _ _ Hkey), Hresp, Hstatus, Hjson.
Qed.

(** C2: on a 200 reply the routine is meant to return a string and never
    raise. The code does not: with a body that is not JSON the decoding
    error escapes, and the request fails. *)
Theorem html_body_with_status_200_raises :
  _gemini_generate {[ "GEMINI_API_KEY" := "k" ]}
    (always (Responds (mkResponse 200 "<html>Service Unavailable</html>" None)))
    (user_message [text_part "hi"]) [] =
  (Raise JSONDecodeError, [provider_request "k" (user_message [text_part "hi"])]).
Proof.
  by apply (non_json_reply_raises _ _ _ [] "k"
              (mkResponse 200 "<html>Service Unavailable</html>" None)).
Qed.

(** ** The examples of the specification *)

Example extract_single_part :
  fst (_gemini_generate {[ "GEMINI_API_KEY" := "k" ]}
         (reply (candidates_reply [text_part "42"])) (VList []) []) = Ok (VStr "42").
Proof. reflexivity. Qed.

Example extract_top_level_text :
  fst (_gemini_generate {[ "GEMINI_API_KEY" := "k" ]}
         (reply (VDict [("candidates", VList [VDict []]); ("text", VStr "x = 3")]))
         (VList []) []) = Ok (VStr "x = 3").
Proof. reflexivity. Qed.

Example extract_nothing :
  fst (_gemini_generate {[ "GEMINI_API_KEY" := "k" ]}
         (reply (candidates_reply [inline_part "image/png" "AAAA"])) (VList []) []) =
    Ok (VStr "No response text returned from model.").
Proof. reflexivity. Qed.

Example extract_empty_object :
  fst (_gemini_generate {[ "GEMINI_API_KEY" := "k" ]} (reply (VDict [])) (VList []) []) =
    Ok (VStr "Unable to parse model response. Raw: {}").
Proof. reflexivity. Qed.

Example extract_error_object :
  fst (_gemini_generate {[ "GEMINI_API_KEY" := "k" ]}
         (reply (VDict [("error", VDict [("code", VInt 7); ("ok", VBool false)])]))
         (VList []) []) =
    Ok (VStr "Unable to parse model response. Raw: {'error': {'code': 7, 'ok': False}}").
Proof. reflexivity. Qed.

Example extract_numeric_text_part :
  fst (_gemini_generate {[ "GEMINI_API_KEY" := "k" ]}
         (reply (candidates_reply [VDict [("text", VInt 5)]])) (VList []) []) =
    Ok (VStr ("Unable to parse model response. Raw: " +:+
              "{'candidates': [{'content': {'parts': [{'text': 5}]}}]}")).
Proof. reflexivity. Qed.

(** The top-level [text] is returned as it is, string or not. *)
Example extract_numeric_top_level_text :
  fst (_gemini_generate {[ "GEMINI_API_KEY" := "k" ]}
         (reply (VDict [("candidates", VList [VDict []]); ("text", VInt 42)]))
         (VList []) []) = Ok (VInt 42).
Proof. reflexivity. Qed.

Example unreachable_provider :
  _gemini_generate {[ "GEMINI_API_KEY" := "k" ]} (always (Fails "connection refused"))
    (VList []) [] =
  (Raise (HTTPException 502 "Error contacting Gemini: connection refused"),
   [provider_request "k" (VList [])]).
Proof. reflexivity. Qed.

(** * Further properties of the code *)

(** ** Truncation *)

Lemma slice_to_length n s : String.length (slice_to n s) = Nat.min n (String.length s).
Proof.
  unfold slice_to. revert s.
  induction n as [| n IH]; intros [| c s]; simpl; try reflexivity.
  by rewrite IH.
Qed.

Lemma slice_to_all n s : (String.length s ≤ n)%nat → slice_to n s = s.
Proof.
  unfold slice_to. revert s.
  induction n as [| n IH]; intros [| c s]; simpl; intros Hlen; try reflexivity; try lia.
  rewrite IH; [reflexivity | lia].
Qed.

Lemma slice_to_prefix n s : ∃ rest, s = slice_to n s +:+ rest.
Proof.
  unfold slice_to. revert s.
  induction n as [| n IH]; intros [| c s]; simpl; eauto.
  destruct (IH s) as [rest Hrest]. exists rest.
  change (String c s = String c (substring 0 n s +:+ rest)). by f_equal.
Qed.

Lemma append_length a b : String.length (a +:+ b) = (String.length a + String.length b)%nat.
Proof. induction a as [| c a IH]; simpl; [reflexivity | by rewrite IH]. Qed.

(** X1: when the provider answers with a status other than 200, the detail
    of the error is the upstream prefix followed by a prefix of the body: the
    whole body when it has at most 500 characters, and never more than 518
    characters in all. *)
Theorem upstream_detail_truncated (environ : gmap string string) provider contents log k resp :
  _gemini_api_key environ = Ok k →
  provider (length log) (provider_request k contents) = Responds resp →
  status_code resp ≠ 200 →
  ∃ shown cut,
    fst (_gemini_generate environ provider contents log) =
      Raise (HTTPException (status_code resp) ("Gemini API error: " +:+ shown)) ∧
    text resp = shown +:+ cut ∧
    (String.length ("Gemini API error: " +:+ shown) ≤ 518)%nat ∧
    ((String.length (text resp) ≤ 500)%nat → cut = EmptyString).
Proof.
  intros Hkey Hresp Hstatus.
  destruct (slice_to_prefix 500 (text resp)) as [cut Hcut].
  exists (slice_to 500 (text resp)), cut. split_and!.
  - rewrite (generate_with_key _ _ _ _ _ Hkey), Hresp. simpl.
    by destruct (Z.eqb_spec (status_code resp) 200).
  - exact Hcut.
  - rewrite append_length, slice_to_length.
    change (String.length "Gemini API error: ") with 18%nat. lia.
  - intros Hshort. rewrite (slice_to_all _ _ Hshort) in Hcut.
    assert (Hlen : String.length (text resp) =
                   (String.length (text resp) + String.length cut)%nat)
      by (by rewrite <- append_length, <- Hcut).
    destruct cut; [reflexivity | simpl in Hlen; lia].
Qed.

Lemma upstream_detail_truncated_witness :
  ∃ shown cut,
    fst (_gemini_generate {[ "GEMINI_API_KEY" := "k" ]}
           (always (Responds (mkResponse 503 "overloaded" None))) (VList []) []) =
      Raise (HTTPException 503 ("Gemini API error: " +:+ shown)) ∧
    "overloaded" = shown +:+ cut ∧
    cut = EmptyString.
Proof.
  destruct (upstream_detail_truncated {[ "GEMINI_API_KEY" := "k" ]}
              (always (Responds (mkResponse 503 "overloaded" None))) (VList []) [] "k"
              (mkResponse 503 "overloaded" None))
    as (shown & cut & Hraise & Hbody & _ & Hshort).
  - reflexivity.
  - reflexivity.
  - discriminate.
  - exists shown, cut. split; [exact Hraise |]. split; [exact Hbody |].
    apply Hshort. simpl. lia.
Defined.

(** ** Transport failures *)

(** X2: when the provider cannot be reached, both endpoints fail with HTTP
    502 and "Error contacting Gemini: " followed by the text of the
    underlying error, after the one attempt: the call is not repeated. *)
Theorem unreachable_provider_is_502 (environ : gmap string string) provider log k msg :
  _gemini_api_key environ = Ok k →
  (∀ req, provider (length log) req = Fails msg) →
  (∀ body, ∃ req,
     solve_text environ provider body log =
       (Raise (HTTPException 502 ("Error contacting Gemini: " +:+ msg)), log ++ [req])) ∧
  (∀ image q, file_bytes image ≠ [] → ∃ req,
     solve_image environ provider image q log =
       (Raise (HTTPException 502 ("Error contacting Gemini: " +:+ msg)), log ++ [req])).
Proof.
  intros Hkey Hfails. split.
  - intros body. eexists.
    rewrite solve_text_eq, (generate_with_key _ _ _ _ _ Hkey), Hfails. reflexivity.
  - intros image q Hdata. eexists.
    rewrite solve_image_eq, (generate_with_key _ _ _ _ _ Hkey), Hfails by done.
    reflexivity.
Qed.

Lemma unreachable_provider_is_502_witness :
  ∃ req,
    solve_text {[ "GEMINI_API_KEY" := "k" ]} (always (Fails "timed out"))
      (mkTextRequest "2+2" None) [] =
    (Raise (HTTPException 502 "Error contacting Gemini: timed out"), [req]).
Proof.
  destruct (unreachable_provider_is_502 {[ "GEMINI_API_KEY" := "k" ]}
              (always (Fails "timed out")) [] "k" "timed out") as [Htext _].
  - reflexivity.
  - intros req. reflexivity.
  - exact (Htext (mkTextRequest "2+2" None)).
Defined.

(** ** What goes out *)

(** X3: every request a provider call adds to the log goes to the fixed
    endpoint with a credential that is not empty and is the value of one of
    the two variables, carries the contents under the single key "contents",
    and has a timeout of 60 seconds. *)
Theorem outbound_request_well_formed (environ : gmap string string) provider contents log req :
  req ∈ calls_of (_gemini_generate environ provider contents) log →
  ∃ k,
    k ≠ EmptyString ∧
    (environ !! "GEMINI_API_KEY" = Some k ∨ environ !! "GOOGLE_API_KEY" = Some k) ∧
    url req = endpoint +:+ k ∧
    json req = VDict [("contents", contents)] ∧
    timeout req = 60.
Proof.
  unfold calls_of. intros Hin.
  pose proof (api_key_cases environ) as Hcases.
  destruct (_gemini_api_key environ) as [k | e] eqn:Hkey.
  - rewrite (generate_with_key _ _ _ _ _ Hkey) in Hin. simpl in Hin.
    rewrite drop_app_length in Hin. apply list_elem_of_singleton in Hin as ->.
    exists k. split_and!; try reflexivity.
    + destruct (environ !! "GEMINI_API_KEY") as [[| c g] |];
        destruct (environ !! "GOOGLE_API_KEY") as [[| c' g'] |]; congruence.
    + destruct (environ !! "GEMINI_API_KEY") as [[| c g] |];
        destruct (environ !! "GOOGLE_API_KEY") as [[| c' g'] |];
        try discriminate; injection Hcases as <-; auto.
  - rewrite (generate_without_key _ _ _ _ _ Hkey) in Hin. simpl in Hin.
    rewrite drop_all in Hin. by apply elem_of_nil in Hin.
Qed.

Lemma outbound_request_well_formed_witness :
  ∃ k,
    k ≠ EmptyString ∧
    url (provider_request "g" (VList [])) = endpoint +:+ k ∧
    timeout (provider_request "g" (VList [])) = 60.
Proof.
  destruct (outbound_request_well_formed {[ "GOOGLE_API_KEY" := "g" ]}
              (always (Fails "down")) (VList []) [] (provider_request "g" (VList [])))
    as (k & Hne & _ & Hurl & _ & Htimeout).
  - vm_compute. left.
  - exists k. split; [exact Hne |]. split; [exact Hurl | exact Htimeout].
Defined.

(** ** The answer *)

(** What the extraction returns always holds something: the last rule puts
    the fixed sentence in the place of an empty text. *)
Lemma extract_text_truthy data v : extract_text data = Ok v → truthy v = true.
Proof.
  unfold extract_text, mbind, result_bind. intros H.
  repeat match type of H with
         | context [match ?x with Ok _ => _ | Raise _ => _ end] =>
           destruct x eqn:?; try discriminate
         end.
  injection H as <-.
  match goal with |- context [negb (truthy ?t)] => by destruct (truthy t) eqn:Ht end.
Qed.

Lemma generate_answer_truthy environ provider contents log v :
  fst (_gemini_generate environ provider contents log) = Ok v → truthy v = true.
Proof.
  destruct (_gemini_api_key environ) as [k | e] eqn:Hkey.
  - rewrite (generate_with_key _ _ _ _ _ Hkey). simpl.
    destruct (provider _ _) as [resp | msg]; [| discriminate].
    destruct (status_code resp =? 200); [| discriminate].
    destruct (json_of resp) as [data |]; [| discriminate].
    destruct (extract_text data) as [a | e] eqn:Hextract; simpl.
    + intros [= <-]. by apply (extract_text_truthy data).
    + by intros [= <-].
  - by rewrite (generate_without_key _ _ _ _ _ Hkey).
Qed.

(** X4: a 200 reply whose body is JSON always yields an answer, whatever the
    shape of the body, and the answer is never empty (never the empty
    string, null, zero or an empty container). *)
Theorem json_reply_yields_answer (environ : gmap string string) provider contents log
    k resp data :
  _gemini_api_key environ = Ok k →
  provider (length log) (provider_request k contents) = Responds resp →
  status_code resp = 200 →
  json_of resp = Some data →
  ∃ answer,
    fst (_gemini_generate environ provider contents log) = Ok answer ∧
    truthy answer = true.
Proof.
  intros Hkey Hresp Hstatus Hjson.
  assert (∃ answer, fst (_gemini_generate environ provider contents log) = Ok answer)
    as [answer Hanswer].
  { rewrite (generate_with_key _ _ _ _ _ Hkey), Hresp, Hstatus, Hjson. simpl.
    destruct (extract_text data); simpl; eauto. }
  exists answer. split; [exact Hanswer |].
  by apply (generate_answer_truthy _ _ _ _ _ Hanswer).
Qed.

Lemma json_reply_yields_answer_witness :
  ∃ answer,
    fst (_gemini_generate {[ "GEMINI_API_KEY" := "k" ]}
           (reply (VList [VInt 1; VInt 2])) (VList []) []) = Ok answer ∧
    truthy answer = true.
Proof.
  apply (json_reply_yields_answer {[ "GEMINI_API_KEY" := "k" ]}
           (reply (VList [VInt 1; VInt 2])) (VList []) [] "k"
           (mkResponse 200 "" (Some (VList [VInt 1; VInt 2]))) (VList [VInt 1; VInt 2]));
    reflexivity.
Defined.

(** X5: whatever an endpoint returns is an object with the single key
    "answer" holding a non-empty answer; anything else is an exception. *)
Theorem endpoint_response_shape (environ : gmap string string) provider log r :
  (∀ body, fst (solve_text environ provider body log) = Ok r →
     ∃ answer, r = VDict [("answer", answer)] ∧ truthy answer = true) ∧
  (∀ image q, fst (solve_image environ provider image q log) = Ok r →
     ∃ answer, r = VDict [("answer", answer)] ∧ truthy answer = true).
Proof.
  assert (Hwrap : ∀ contents,
            fst (match _gemini_generate environ provider contents log with
                 | (Ok answer, log') => (Ok (VDict [("answer", answer)]), log')
                 | (Raise e, log') => (Raise e, log')
                 end) = Ok r →
            ∃ answer, r = VDict [("answer", answer)] ∧ truthy answer = true).
  { intros contents.
    pose proof (generate_answer_truthy environ provider contents log) as Htruthy.
    destruct (_gemini_generate environ provider contents log) as [[answer | e] log'];
      simpl in *; [| discriminate].
    intros [= <-]. exists answer. split; [reflexivity | by apply Htruthy]. }
  split.
  - intros body. rewrite solve_text_eq. apply Hwrap.
  - intros image q. destruct (file_bytes image) as [| b bs] eqn:Hdata.
    + unfold solve_image. rewrite Hdata. discriminate.
    + rewrite solve_image_eq by (by rewrite Hdata). apply Hwrap.
Qed.

Lemma endpoint_response_shape_witness :
  ∃ answer,
    VDict [("answer", VStr "4")] = VDict [("answer", answer)] ∧ truthy answer = true.
Proof.
  destruct (endpoint_response_shape {[ "GEMINI_API_KEY" := "k" ]}
              (reply (candidates_reply [text_part "4"])) [] (VDict [("answer", VStr "4")]))
    as [Htext _].
  apply (Htext (mkTextRequest "2+2" None)). reflexivity.
Defined.

(** ** Replies of an unexpected shape *)

Lemma no_first_candidate_raises data :
  first_candidate data = None → ∃ e, extract_text data = Raise e.
Proof.
  destruct data as [| | | | | | d]; try (intros _; by eexists).
  unfold first_candidate, extract_text, py_or. simpl.
  destruct (dict_lookup d "candidates") as [c |]; [| intros _; by eexists].
  destruct c as [| [] | n | f | [| a s] | [| x l] | [| kv d']]; simpl;
    try (intros _; by eexists).
  - destruct (negb (n =? 0)); intros _; by eexists.
  - destruct (float_truthy f); intros _; by eexists.
  - destruct x; try (intros _; by eexists). discriminate.
Qed.

(** X6: a JSON reply that is not an object, or whose [candidates] is absent,
    null, empty, or anything but an array starting with an object, is
    answered with the best-effort string: the fixed prefix and the first 500
    characters of the printed reply. *)
Theorem no_first_candidate_best_effort (environ : gmap string string) provider contents log
    k resp data :
  _gemini_api_key environ = Ok k →
  provider (length log) (provider_request k contents) = Responds resp →
  status_code resp = 200 →
  json_of resp = Some data →
  first_candidate data = None →
  ∃ raw cut,
    fst (_gemini_generate environ provider contents log) =
      Ok (VStr ("Unable to parse model response. Raw: " +:+ raw)) ∧
    str data = raw +:+ cut ∧
    (String.length raw ≤ 500)%nat ∧
    ((String.length (str data) ≤ 500)%nat → raw = str data).
Proof.
  intros Hkey Hresp Hstatus Hjson Hshape.
  destruct (no_first_candidate_raises data Hshape) as [e Hraise].
  destruct (slice_to_prefix 500 (str data)) as [cut Hcut].
  exists (slice_to 500 (str data)), cut. split_and!.
  - rewrite (generate_with_key _ _ _ _ _ Hkey), Hresp, Hstatus, Hjson. simpl.
    by rewrite Hraise.
  - exact Hcut.
  - rewrite slice_to_length. lia.
  - apply slice_to_all.
Qed.

Lemma no_first_candidate_best_effort_witness :
  ∃ raw cut,
    fst (_gemini_generate {[ "GEMINI_API_KEY" := "k" ]}
           (reply (VDict [("error", VStr "quota")])) (VList []) []) =
      Ok (VStr ("Unable to parse model response. Raw: " +:+ raw)) ∧
    str (VDict [("error", VStr "quota")]) = raw +:+ cut ∧
    raw = str (VDict [("error", VStr "quota")]).
Proof.
  destruct (no_first_candidate_best_effort {[ "GEMINI_API_KEY" := "k" ]}
              (reply (VDict [("error", VStr "quota")])) (VList []) [] "k"
              (mkResponse 200 "" (Some (VDict [("error", VStr "quota")])))
              (VDict [("error", VStr "quota")]))
    as (raw & cut & Hanswer & Hraw & _ & Hshort); try reflexivity.
  exists raw, cut. split; [exact Hanswer |]. split; [exact Hraw |].
  apply Hshort. vm_compute. lia.
Defined.

(** X7: a first candidate without [content], or whose [content] has no
    [parts], is not a parse failure: the reply is answered like one whose
    parts give no text, with the top-level [text] if it holds something and
    the fixed sentence otherwise. *)
Theorem missing_parts_falls_back (environ : gmap string string) provider contents log
    k resp d first :
  _gemini_api_key environ = Ok k →
  provider (length log) (provider_request k contents) = Responds resp →
  status_code resp = 200 →
  json_of resp = Some (VDict d) →
  first_candidate (VDict d) = Some first →
  (dict_lookup first "content" = None ∨
   ∃ content, dict_lookup first "content" = Some (VDict content) ∧
              dict_lookup content "parts" = None) →
  fst (_gemini_generate environ provider contents log) =
    Ok (match dict_lookup d "text" with
        | Some t => if truthy t then t else VStr "No response text returned from model."
        | None => VStr "No response text returned from model."
        end).
Proof.
  intros Hkey Hresp Hstatus Hjson Hfirst Hmissing.
  rewrite (generate_with_key _ _ _ _ _ Hkey), Hresp, Hstatus, Hjson. simpl.
  assert (Hextract : extract_text (VDict d) = Ok (fallback_answer d)).
  { unfold first_candidate in Hfirst. unfold extract_text, fallback_answer, py_or. simpl.
    destruct (dict_lookup d "candidates") as [[| | | | | [| [| | | | | | f] rest] |] |];
      try discriminate.
    injection Hfirst as ->. simpl.
    destruct Hmissing as [-> | (content & -> & Hparts)]; simpl; rewrite ?Hparts; simpl.
    - destruct (dict_lookup d "text") as [t |]; simpl; [| done].
      destruct (truthy t) eqn:Ht; simpl; by rewrite ?Ht.
    - destruct (dict_lookup d "text") as [t |]; simpl; [| done].
      destruct (truthy t) eqn:Ht; simpl; by rewrite ?Ht. }
  by rewrite Hextract.
Qed.

Lemma missing_parts_falls_back_witness :
  fst (_gemini_generate {[ "GEMINI_API_KEY" := "k" ]}
         (reply (VDict [("candidates", VList [VDict [("finishReason", VStr "SAFETY")]])]))
         (VList []) []) =
    Ok (VStr "No response text returned from model.").
Proof.
  apply (missing_parts_falls_back {[ "GEMINI_API_KEY" := "k" ]}
           (reply (VDict [("candidates", VList [VDict [("finishReason", VStr "SAFETY")]])]))
           (VList []) [] "k"
           (mkResponse 200 ""
              (Some (VDict [("candidates", VList [VDict [("finishReason", VStr "SAFETY")]])])))
           [("candidates", VList [VDict [("finishReason", VStr "SAFETY")]])]
           [("finishReason", VStr "SAFETY")]); try reflexivity.
  left. reflexivity.
Defined.

Lemma bad_text_part_raises parts :
  forallb is_object parts = true →
  ∃ ts, text_fields parts = Ok ts ∧
        (existsb bad_text_part parts = true →
         strs_of (List.filter truthy ts) = Raise TypeError).
Proof.
  induction parts as [| p parts IH]; intros Hobjects.
  - exists []. split; [reflexivity | discriminate].
  - simpl in Hobjects. apply andb_prop in Hobjects as [Hp Hrest].
    destruct (IH Hrest) as (ts & Hts & Hbad).
    destruct p as [| | | | | | d]; try discriminate.
    simpl. destruct (dict_lookup d "text") as [t |] eqn:Hlookup; simpl.
    + rewrite Hts. simpl. exists (t :: ts). split; [reflexivity |].
      destruct t as [| b | n | f | s | [| x l] | [| kv d']]; simpl;
        try exact Hbad; try reflexivity.
      * destruct b; simpl; [reflexivity | exact Hbad].
      * destruct (negb (n =? 0)); simpl; [reflexivity | exact Hbad].
      * destruct (float_truthy f); simpl; [reflexivity | exact Hbad].
      * destruct (nonempty s); simpl; [| exact Hbad].
        intros H. by rewrite (Hbad H).
    + exists ts. split; [exact Hts | exact Hbad].
Qed.

(** X8: one part whose [text] holds something that is not a string spoils
    the extraction for the whole reply, even when other parts carry proper
    text: the answer is the best-effort string. *)
Theorem non_string_text_best_effort (environ : gmap string string) provider contents log
    k resp data parts :
  _gemini_api_key environ = Ok k →
  provider (length log) (provider_request k contents) = Responds resp →
  status_code resp = 200 →
  json_of resp = Some data →
  candidate_parts data = Some parts →
  forallb is_object parts = true →
  existsb bad_text_part parts = true →
  fst (_gemini_generate environ provider contents log) =
    Ok (VStr ("Unable to parse model response. Raw: " +:+ slice_to 500 (str data))).
Proof.
  intros Hkey Hresp Hstatus Hjson Hshape Hobjects Hbad.
  destruct (bad_text_part_raises parts Hobjects) as (ts & Hts & Hraise).
  specialize (Hraise Hbad).
  rewrite (generate_with_key _ _ _ _ _ Hkey), Hresp, Hstatus, Hjson. simpl.
  assert (Hextract : extract_text data = Raise TypeError).
  { destruct data as [| | | | | | d]; try discriminate.
    unfold candidate_parts in Hshape.
    destruct (dict_lookup d "candidates")
      as [[| | | | | [| [| | | | | | first] rest] |] |] eqn:Hc; try discriminate.
    destruct (dict_lookup first "content") as [[| | | | | | content] |] eqn:Hcontent;
      try discriminate.
    destruct (dict_lookup content "parts") as [[| | | | | ps |] |] eqn:Hparts;
      try discriminate.
    injection Hshape as ->.
    unfold extract_text, py_join. simpl. rewrite Hc. simpl. rewrite Hcontent. simpl.
    rewrite Hparts. simpl. rewrite Hts. simpl. by rewrite Hraise. }
  by rewrite Hextract.
Qed.

Lemma non_string_text_best_effort_witness :
  let data := candidates_reply [text_part "x = 3"; VDict [("text", VInt 3)]] in
  fst (_gemini_generate {[ "GEMINI_API_KEY" := "k" ]} (reply data) (VList []) []) =
    Ok (VStr ("Unable to parse model response. Raw: " +:+ slice_to 500 (str data))).
Proof.
  intros data.
  apply (non_string_text_best_effort {[ "GEMINI_API_KEY" := "k" ]} (reply data) (VList []) []
           "k" (mkResponse 200 "" (Some data)) data
           [text_part "x = 3"; VDict [("text", VInt 3)]]); reflexivity.
Defined.



(** ** The optional query of an image request *)

(** X10: a query that is absent or the empty string adds nothing to an image
    request, which then behaves exactly as one without a query; the message
    has two parts in that case and four in every other. *)
Theorem image_parts_count (environ : gmap string string) provider image q log k :
  _gemini_api_key environ = Ok k →
  file_bytes image ≠ [] →
  (unset_or_empty q →
     solve_image environ provider image q log = solve_image environ provider image None log) ∧
  ∃ parts,
    snd (solve_image environ provider image q log) =
      log ++ [provider_request k (user_message parts)] ∧
    length parts = (if nonempty (default EmptyString q) then 4 else 2)%nat.
Proof.
  intros Hkey Hdata. split.
  - intros [-> | ->]; [reflexivity |]. by rewrite !solve_image_eq.
  - eexists. split.
    + rewrite solve_image_eq, (generate_with_key _ _ _ _ _ Hkey) by done.
      by destruct (match provider _ _ with Responds _ => _ | Fails _ => _ end).
    + by destruct q as [[| c s] |].
Qed.

Lemma image_parts_count_witness :
  solve_image {[ "GEMINI_API_KEY" := "k" ]} (always (Fails "down"))
    (mkUploadFile (Some "image/png") [x89]) (Some EmptyString) [] =
  solve_image {[ "GEMINI_API_KEY" := "k" ]} (always (Fails "down"))
    (mkUploadFile (Some "image/png") [x89]) None [].
Proof.
  destruct (image_parts_count {[ "GEMINI_API_KEY" := "k" ]} (always (Fails "down"))
              (mkUploadFile (Some "image/png") [x89]) (Some EmptyString) [] "k")
    as [Hsame _].
  - reflexivity.
  - discriminate.
  - apply Hsame. right. reflexivity.
Defined.

(** ** The diagnostic endpoint *)

(** X11: the diagnostic answer always has the same six keys in the same
    order; the backend is always reported as running, the four status fields
    are always strings and [collections] is always a list. *)
Theorem test_database_shape (environ : gmap string string) import :
  ∃ database database_url database_name connection_status collections,
    test_database environ import =
      VDict [("backend", VStr "✅ Running");
             ("database", VStr database);
             ("database_url", VStr database_url);
             ("database_name", VStr database_name);
             ("connection_status", VStr connection_status);
             ("collections", VList collections)].
Proof.
  unfold test_database.
  destruct import as [| e | [[name [names | e]] |]]; simpl; by eexists _, _, _, _, _.
Qed.

(** X12: the [database_url] and [database_name] fields of the diagnostic
    answer tell only whether DATABASE_URL and DATABASE_NAME are set to a
    non-empty value; what the database module reported for them, its name
    included, is always overwritten. *)
Theorem test_database_reports_variables (environ : gmap string string) import :
  py_get (test_database environ import) "database_url" VNone =
    Ok (VStr (match environ !! "DATABASE_URL" with
              | Some (String _ _) => "✅ Set"
              | _ => "❌ Not Set"
              end)) ∧
  py_get (test_database environ import) "database_name" VNone =
    Ok (VStr (match environ !! "DATABASE_NAME" with
              | Some (String _ _) => "✅ Set"
              | _ => "❌ Not Set"
              end)).
Proof.
  unfold test_database, getenv.
  destruct (environ !! "DATABASE_URL") as [[| c u] |];
    destruct (environ !! "DATABASE_NAME") as [[| c' n] |];
    destruct import as [| e | [[name [names | e]] |]]; split; reflexivity.
Qed.


(** X14: the diagnostic answer reports the connection as "Connected"
    exactly when the database module gave a database, also when listing its
    collections then failed, and as "Not Connected" otherwise. *)
Theorem test_database_connection_status (environ : gmap string string) import :
  (py_get (test_database environ import) "connection_status" VNone =
     Ok (VStr "Connected") ↔ ∃ db, import = Imported (Some db)) ∧
  ((∀ db, import ≠ Imported (Some db)) →
   py_get (test_database environ import) "connection_status" VNone =
     Ok (VStr "Not Connected")).
Proof.
  unfold test_database.
  destruct import as [| e | [[name [names | e]] |]]; simpl; split;
    solve [ reflexivity
          | split; [discriminate | by intros [db [=]]]
          | split; [by eexists | reflexivity]
          | intros Hnone; by edestruct Hnone ].
Qed.

(** X15: the diagnostic answer says "Connected & Working" exactly when a
    database was imported and its collections could be listed; an exception
    of the listing or of the import is reported with at most the first 50
    characters of its text. *)
Theorem test_database_working (environ : gmap string string) import :
  (py_get (test_database environ import) "database" VNone =
     Ok (VStr "✅ Connected & Working") ↔
   ∃ db names, import = Imported (Some db) ∧ list_collection_names db = Listed names) ∧
  (∀ db e, import = Imported (Some db) → list_collection_names db = ListingFails e →
     py_get (test_database environ import) "database" VNone =
       Ok (VStr ("⚠️  Connected but Error: " +:+ slice_to 50 e))) ∧
  (∀ e, import = ImportRaises e →
     py_get (test_database environ import) "database" VNone =
       Ok (VStr ("❌ Error: " +:+ slice_to 50 e))).
Proof.
  unfold test_database.
  destruct import as [| e | [[name [names | e]] |]]; simpl; split_and!;
    try (split; [discriminate |]); try (split; [by eexists _, _ | reflexivity]);
    try (intros (db & names' & Himport & Hlisted)); try (intros db e' Himport Hlisted);
    try (intros e' Himport);
    simplify_eq/=; try reflexivity.
Qed.


Lemma test_database_connection_status_witness :
  py_get (test_database ∅ (Imported (Some (mkDatabase None (ListingFails "not authorized")))))
    "connection_status" VNone = Ok (VStr "Connected").
Proof.
  destruct (test_database_connection_status ∅
              (Imported (Some (mkDatabase None (ListingFails "not authorized")))))
    as [[_ Hconnected] _].
  apply Hconnected. eexists. reflexivity.
Defined.

Lemma test_database_working_witness :
  py_get (test_database ∅ (ImportRaises "connection refused")) "database" VNone =
    Ok (VStr "❌ Error: connection refused").
Proof.
  destruct (test_database_working ∅ (ImportRaises "connection refused")) as (_ & _ & Hraises).
  apply (Hraises "connection refused"). reflexivity.
Defined.
